(** * rdkit_canonical.py: canonical SMILES through an external toolkit

    The script is a thin wrapper: it hands its first command-line argument
    to the cheminformatics toolkit's parser, maps the parser's [None] to
    the empty string, and otherwise prints the toolkit's canonical
    serialization.  The toolkit is not part of the repository, so it
    enters the development as an interface ([Chem.Toolkit]); the wrapper
    is embedded over an arbitrary implementation of that interface.

    Python effects are explicit: a call may return or raise, the toolkit
    owns a private state the wrapper cannot see into, and the process
    owns a standard output and a standard error stream.  The model starts
    once the two imports at the top of the script have succeeded. *)

From Stdlib Require Import String Ascii List ZArith Bool Arith Lia.
Import ListNotations.
Local Open Scope string_scope.

(** ** Exceptions and outcomes of a call *)

(** The exceptions the script can meet: [sys.exit] raises [SystemExit],
    indexing a list out of range raises [IndexError], and anything the
    toolkit raises is a [ToolkitError]. *)
Inductive exn : Type :=
| SystemExit (code : Z)
| IndexError
| ToolkitError (what : string).

Inductive outcome (A : Type) : Type :=
| Ret (a : A)
| Raise (e : exn).

Arguments Ret {A} a.
Arguments Raise {A} e.

(** ** The external toolkit: [from rdkit import Chem] *)

Module Chem.

(** The two entry points the wrapper calls.  [World] is whatever the
    toolkit keeps to itself between calls (allocator, logger, ...);
    [Mol] is the opaque molecule handle; Python's [None] result of the
    parser is [Ret None]. *)
Class Toolkit : Type := {
  World : Type;
  Mol : Type;
  MolFromSmiles : string -> World -> outcome (option Mol) * World;
  MolToSmiles : Mol -> bool -> World -> outcome string * World
}.

End Chem.

(** ** The process and its monad *)

Section Wrapper.

Context {T : Chem.Toolkit}.

(** [stderr] holds one entry per traceback the interpreter wrote.  What
    the toolkit logs on its own account is part of its [Chem.World], which
    the script neither reads nor writes. *)
Record Proc : Type := mkProc {
  toolkit : Chem.World;
  stdout : string;
  stderr : list exn
}.

Definition Py (A : Type) : Type := Proc -> outcome A * Proc.

Definition ret {A} (a : A) : Py A := fun p => (Ret a, p).

Definition raise {A} (e : exn) : Py A := fun p => (Raise e, p).

Definition bind {A B} (m : Py A) (k : A -> Py B) : Py B :=
  fun p =>
    match m p with
    | (Ret a, q) => k a q
    | (Raise e, q) => (Raise e, q)
    end.

(** A toolkit call runs on the toolkit's own state and touches neither
    stream of the process. *)
Definition chem {A} (f : Chem.World -> outcome A * Chem.World) : Py A :=
  fun p =>
    let (r, w) := f (toolkit p) in
    (r, mkProc w (stdout p) (stderr p)).

Definition newline : string := String "010"%char "".

(** [print(s)] for a string [s]. *)
Definition print (s : string) : Py unit :=
  fun p => (Ret tt, mkProc (toolkit p) (stdout p ++ s ++ newline) (stderr p)).

(** [sys.exit(code)]. *)
Definition sys_exit {A} (code : Z) : Py A := raise (SystemExit code).

(** [l[i]] on a list, for a non-negative index. *)
Definition getitem (l : list string) (i : nat) : Py string :=
  match nth_error l i with
  | Some x => ret x
  | None => raise IndexError
  end.

End Wrapper.

Declare Scope py_scope.
Delimit Scope py_scope with py.
Notation "x <- m ;; k" := (bind m (fun x => k))
  (at level 61, m at next level, right associativity) : py_scope.
Notation "m ;; k" := (bind m (fun _ => k))
  (at level 61, right associativity) : py_scope.
Local Open Scope py_scope.

(** ** The script *)

Section Script.

Context {T : Chem.Toolkit}.

(** [def canonical_smiles(smiles)] *)
Definition canonical_smiles (smiles : string) : Py string :=
  mol <- chem (Chem.MolFromSmiles smiles) ;;
  match mol with
  | None => ret ""
  | Some m => chem (Chem.MolToSmiles m true)
  end.

(** The body under [if __name__ == '__main__':], over [sys.argv]. *)
Definition main (argv : list string) : Py unit :=
  (if (length argv <? 2)%nat then print "" ;; sys_exit 0 else ret tt) ;;
  input_smiles <- getitem argv 1 ;;
  out <- canonical_smiles input_smiles ;;
  print out.

(** The interpreter around the script: falling off the end exits with
    status 0, [SystemExit] exits with its code and writes nothing, any
    other uncaught exception writes a traceback and exits with 1. *)
Definition run_script (argv : list string) (p : Proc) : Z * Proc :=
  match main argv p with
  | (Ret _, q) => (0%Z, q)
  | (Raise (SystemExit code), q) => (code, q)
  | (Raise e, q) => (1%Z, mkProc (toolkit q) (stdout q) (stderr q ++ [e]))
  end.

(** What a caller of the program sees: what was written to standard
    output, and the exit status. *)
Definition observable (r : Z * Proc) : string * Z :=
  (stdout (snd r), fst r).

End Script.

(** ** Contracts the specification asks of the toolkit *)

Section Contracts.

Context {T : Chem.Toolkit}.

(** The toolkit calls the wrapper makes for the argument [smiles], from
    toolkit state [w], all return: the parser does, and so does the
    serializer on the handle when there is one. *)
Definition toolkit_returns (smiles : string) (w : Chem.World) : bool :=
  match Chem.MolFromSmiles smiles w with
  | (Raise _, _) => false
  | (Ret None, _) => true
  | (Ret (Some m), w1) =>
      match Chem.MolToSmiles m true w1 with
      | (Ret _, _) => true
      | (Raise _, _) => false
      end
  end.

(** Both routines are deterministic: what a call returns (or raises) is
    fixed by its arguments, whatever state the toolkit is in. *)
Definition toolkit_deterministic : Prop :=
  (forall s w w',
     fst (Chem.MolFromSmiles s w) = fst (Chem.MolFromSmiles s w')) /\
  (forall m b w w',
     fst (Chem.MolToSmiles m b w) = fst (Chem.MolToSmiles m b w')).

(** The toolkit's canonicalization is idempotent: a canonical string it
    wrote is accepted by its parser, and the handle so obtained is written
    back as the very same string. *)
Definition toolkit_idempotent : Prop :=
  forall m w c w1,
    Chem.MolToSmiles m true w = (Ret c, w1) ->
    forall w2, exists m' w3 w4,
      Chem.MolFromSmiles c w2 = (Ret (Some m'), w3) /\
      Chem.MolToSmiles m' true w3 = (Ret c, w4).

(** On the empty string the toolkit either refuses it or accepts it as a
    molecule whose canonical form is empty. *)
Definition toolkit_empty_on_empty (w : Chem.World) : Prop :=
  (exists w1, Chem.MolFromSmiles "" w = (Ret None, w1)) \/
  (exists m w1, Chem.MolFromSmiles "" w = (Ret (Some m), w1) /\
                fst (Chem.MolToSmiles m true w1) = Ret "").

End Contracts.

(** ** A small toolkit to run the script on

Linear molecules over carbon and oxygen.  The parser accepts the
strings over the letters C and O, the empty one included (the empty
molecule); it refuses any other ASCII text with [None], after one line in
its own log; it raises on a byte outside ASCII, an argument it cannot
convert.  The serializer writes the atoms as read or, in canonical mode,
carbons first. *)

Module ToyKit.

Inductive atom : Type := C | O.

Definition atom_of (c : ascii) : option atom :=
  if Ascii.eqb c "C" then Some C
  else if Ascii.eqb c "O" then Some O
  else None.

Definition letter (a : atom) : ascii :=
  match a with C => "C"%char | O => "O"%char end.

Definition outside_ascii (c : ascii) : bool :=
  match c with Ascii _ _ _ _ _ _ _ top => top end.

Fixpoint convertible (s : string) : bool :=
  match s with
  | EmptyString => true
  | String c s' => negb (outside_ascii c) && convertible s'
  end.

Fixpoint atoms_of (s : string) : option (list atom) :=
  match s with
  | EmptyString => Some []
  | String c s' =>
      match atom_of c, atoms_of s' with
      | Some a, Some l => Some (a :: l)
      | _, _ => None
      end
  end.

Fixpoint render (l : list atom) : string :=
  match l with
  | [] => EmptyString
  | a :: l' => String (letter a) (render l')
  end.

Definition is_C (a : atom) : bool := match a with C => true | O => false end.
Definition is_O (a : atom) : bool := negb (is_C a).

Definition canon (l : list atom) : list atom :=
  filter is_C l ++ filter is_O l.

(** The toolkit's state is the number of lines it has logged. *)
Definition parse (s : string) (log : nat) : outcome (option (list atom)) * nat :=
  if convertible s then
    match atoms_of s with
    | Some l => (Ret (Some l), log)
    | None => (Ret None, S log)
    end
  else (Raise (ToolkitError "argument conversion"), log).

Definition serialize (m : list atom) (canonical : bool) (log : nat)
    : outcome string * nat :=
  (Ret (render (if canonical then canon m else m)), log).

#[export] Instance kit : Chem.Toolkit := {
  Chem.World := nat;
  Chem.Mol := list atom;
  Chem.MolFromSmiles := parse;
  Chem.MolToSmiles := serialize
}.

(** A fresh process: nothing logged, nothing written. *)
Definition fresh : Proc := mkProc (0%nat : Chem.World) "" [].

(** What [sys.argv] starts with. *)
Definition script : string := "rdkit_canonical.py".

End ToyKit.

(** * Properties *)

(** ** Running the script on the small toolkit *)

Module ToyRuns.
Import ToyKit.

Example ethanol_reordered :
  canonical_smiles "OCC" fresh = (Ret "CCO", fresh).
Proof. reflexivity. Qed.

Example rejected_text :
  canonical_smiles "notasmiles(((" fresh = (Ret "", mkProc (1%nat : Chem.World) "" []).
Proof. reflexivity. Qed.

Example program_on_ethanol :
  observable (run_script ["rdkit_canonical.py"; "OCC"] fresh)
  = ("CCO" ++ newline, 0%Z).
Proof. reflexivity. Qed.

Example program_on_rejected_text :
  observable (run_script ["rdkit_canonical.py"; "notasmiles((("] fresh)
  = (newline, 0%Z).
Proof. reflexivity. Qed.

Example program_without_arguments :
  run_script ["rdkit_canonical.py"] fresh = (0%Z, mkProc (0%nat : Chem.World) newline []).
Proof. reflexivity. Qed.

End ToyRuns.

(** ** The wrapper over any toolkit *)

Ltac py_unfold :=
  unfold canonical_smiles, main, getitem, sys_exit, print, chem, bind, ret, raise.

Section WrapperFacts.

Context {T : Chem.Toolkit}.

Lemma chem_run {A} (f : Chem.World -> outcome A * Chem.World) p r w :
  f (toolkit p) = (r, w) ->
  chem f p = (r, mkProc w (stdout p) (stderr p)).
Proof. intros E. unfold chem. rewrite E. reflexivity. Qed.

(** The function writes to neither stream, however the toolkit answers. *)
Lemma canonical_smiles_streams smiles p :
  stdout (snd (canonical_smiles smiles p)) = stdout p /\
  stderr (snd (canonical_smiles smiles p)) = stderr p.
Proof.
  py_unfold.
  destruct (Chem.MolFromSmiles smiles (toolkit p)) as [[[m|]|e] w]; cbn; auto.
  destruct (Chem.MolToSmiles m true w) as [r w']; cbn; auto.
Qed.

(** The two branches of the function, by what the parser answered. *)
Lemma canonical_smiles_None smiles p w :
  Chem.MolFromSmiles smiles (toolkit p) = (Ret None, w) ->
  canonical_smiles smiles p = (Ret "", mkProc w (stdout p) (stderr p)).
Proof.
  intros E. unfold canonical_smiles, bind.
  rewrite (chem_run _ _ _ _ E). reflexivity.
Qed.

Lemma canonical_smiles_Some smiles p m w :
  Chem.MolFromSmiles smiles (toolkit p) = (Ret (Some m), w) ->
  canonical_smiles smiles p =
  chem (Chem.MolToSmiles m true) (mkProc w (stdout p) (stderr p)).
Proof.
  intros E. unfold canonical_smiles, bind.
  rewrite (chem_run _ _ _ _ E). reflexivity.
Qed.

Lemma canonical_smiles_Some_run smiles p m w r w' :
  Chem.MolFromSmiles smiles (toolkit p) = (Ret (Some m), w) ->
  Chem.MolToSmiles m true w = (r, w') ->
  canonical_smiles smiles p = (r, mkProc w' (stdout p) (stderr p)).
Proof.
  intros E S. rewrite (canonical_smiles_Some _ _ _ _ E).
  unfold chem. cbn. rewrite S. reflexivity.
Qed.

(** With fewer than two entries in [sys.argv] the first branch runs and
[sys.exit(0)] ends the script. *)
Lemma main_short_argv argv p :
  (length argv < 2)%nat ->
  main argv p =
  (Raise (SystemExit 0), mkProc (toolkit p) (stdout p ++ newline) (stderr p)).
Proof.
  intros H. unfold main.
  destruct (Nat.ltb_spec (length argv) 2) as [_|G]; [reflexivity | lia].
Qed.

(** With two or more, the script is [print(canonical_smiles(sys.argv[1]))]. *)
Lemma main_with_argument prog a rest p :
  main (prog :: a :: rest) p = (out <- canonical_smiles a ;; print out) p.
Proof. reflexivity. Qed.

(** The interpreter's view of those two cases. *)
Lemma run_script_short_argv argv p :
  (length argv < 2)%nat ->
  run_script argv p =
  (0%Z, mkProc (toolkit p) (stdout p ++ newline) (stderr p)).
Proof. intros H. unfold run_script. rewrite (main_short_argv _ _ H). reflexivity. Qed.

Lemma run_script_prints prog a rest p out q :
  canonical_smiles a p = (Ret out, q) ->
  run_script (prog :: a :: rest) p =
  (0%Z, mkProc (toolkit q) (stdout p ++ out ++ newline) (stderr p)).
Proof.
  intros R. unfold run_script. rewrite main_with_argument. unfold bind.
  destruct (canonical_smiles_streams a p) as [So Se].
  rewrite R in *. cbn in *. unfold print. rewrite So, Se. reflexivity.
Qed.

End WrapperFacts.

(** ** The small toolkit meets the contracts *)

Module ToyFacts.
Import ToyKit.

Lemma atom_of_letter a : atom_of (letter a) = Some a.
Proof. destruct a; reflexivity. Qed.

Lemma atoms_of_render l : atoms_of (render l) = Some l.
Proof.
  induction l as [|a l IH]; cbn [render atoms_of]; [reflexivity|].
  rewrite atom_of_letter, IH. reflexivity.
Qed.

Lemma convertible_render l : convertible (render l) = true.
Proof.
  induction l as [|a l IH]; cbn [render convertible]; [reflexivity|].
  rewrite IH. destruct a; reflexivity.
Qed.

Lemma parse_render l log : parse (render l) log = (Ret (Some l), log).
Proof. unfold parse. rewrite convertible_render, atoms_of_render. reflexivity. Qed.

Lemma filter_C_canon l : filter is_C (canon l) = filter is_C l.
Proof.
  unfold canon. rewrite filter_app.
  induction l as [|[|] l IH]; cbn in *; [reflexivity | f_equal; exact IH | exact IH].
Qed.

Lemma filter_O_canon l : filter is_O (canon l) = filter is_O l.
Proof.
  unfold canon. rewrite filter_app.
  induction l as [|[|] l IH]; cbn in *; [reflexivity | exact IH |].
  rewrite <- IH at 2. clear IH.
  induction (filter is_C l) as [|[|] k IHk]; cbn in *; congruence.
Qed.

Lemma canon_canon l : canon (canon l) = canon l.
Proof.
  unfold canon at 1. rewrite filter_C_canon, filter_O_canon. reflexivity.
Qed.

Lemma kit_deterministic : @toolkit_deterministic kit.
Proof.
  split.
  - intros s w w'. cbn. unfold parse.
    destruct (convertible s); [destruct (atoms_of s)|]; reflexivity.
  - intros m b w w'. reflexivity.
Qed.

Lemma kit_idempotent : @toolkit_idempotent kit.
Proof.
  intros m w c w1 E w2. cbn in *. unfold serialize in E.
  injection E as <- <-.
  exists (canon m), w2, w2. split.
  - apply parse_render.
  - unfold serialize. rewrite canon_canon. reflexivity.
Qed.

End ToyFacts.

(** ** canonical_smiles *)

Section CanonicalSmiles.

Context {T : Chem.Toolkit}.

(** C1. When the toolkit's parser answers [None] for the input,
[canonical_smiles] returns the empty string: it returns and does not
raise, and it writes nothing, the two streams of the process being as they
were; the only change is the one the parser made to the toolkit's own
state.  The empty string is thus all the caller gets to see of the
failure. *)
Theorem canonical_smiles_rejected (smiles : string) (p : Proc) (w : Chem.World) :
  Chem.MolFromSmiles smiles (toolkit p) = (Ret None, w) ->
  canonical_smiles smiles p = (Ret "", mkProc w (stdout p) (stderr p)).
Proof. exact (canonical_smiles_None smiles p w). Qed.

(** C2. When the parser returns a handle [m], [canonical_smiles] is the
toolkit's serializer called on [m] with the canonical flag set, in the
state the parser left: same result, be it a string or an exception. *)
Theorem canonical_smiles_accepted (smiles : string) (p : Proc)
    (m : Chem.Mol) (w : Chem.World) :
  Chem.MolFromSmiles smiles (toolkit p) = (Ret (Some m), w) ->
  canonical_smiles smiles p =
  chem (Chem.MolToSmiles m true) (mkProc w (stdout p) (stderr p)).
Proof. exact (canonical_smiles_Some smiles p m w). Qed.

(** C3, as amended. When the parser returns a handle and the serializer
writes a non-empty canonical string for it, [canonical_smiles] returns that
non-empty string.  Nothing in the wrapper makes the output of an accepted
input non-empty by itself. *)
Theorem canonical_smiles_nonempty (smiles : string) (p : Proc)
    (m : Chem.Mol) (w w' : Chem.World) (c : string) :
  Chem.MolFromSmiles smiles (toolkit p) = (Ret (Some m), w) ->
  Chem.MolToSmiles m true w = (Ret c, w') ->
  c <> "" ->
  fst (canonical_smiles smiles p) = Ret c /\
  forall out, fst (canonical_smiles smiles p) = Ret out -> out <> "".
Proof.
  intros E S N. rewrite (canonical_smiles_Some_run _ _ _ _ _ _ E S). cbn.
  split; [reflexivity|]. intros out [= <-]. exact N.
Qed.

(** C7. If the toolkit's canonicalization is idempotent, the canonical
output of an accepted input is a fixed point: [canonical_smiles] applied to
it, in whatever state the process is by then, returns it again. *)
Theorem canonical_smiles_idempotent (smiles : string) (p q : Proc)
    (m : Chem.Mol) (w : Chem.World) (c : string) :
  toolkit_idempotent ->
  Chem.MolFromSmiles smiles (toolkit p) = (Ret (Some m), w) ->
  canonical_smiles smiles p = (Ret c, q) ->
  forall p', fst (canonical_smiles c p') = Ret c.
Proof.
  intros I E R p'.
  destruct (Chem.MolToSmiles m true w) as [r w1] eqn:S.
  rewrite (canonical_smiles_Some_run _ _ _ _ _ _ E S) in R.
  injection R as -> _.
  destruct (I m w c w1 S (toolkit p')) as (m' & w3 & w4 & E' & S').
  rewrite (canonical_smiles_Some_run _ _ _ _ _ _ E' S'). reflexivity.
Qed.

(** C9. If the toolkit's parser and serializer are deterministic, so is
[canonical_smiles]: two calls on the same input return the same string (or
raise the same exception), whatever state each call starts from. *)
Theorem canonical_smiles_deterministic (smiles : string) (p p' : Proc) :
  toolkit_deterministic ->
  fst (canonical_smiles smiles p) = fst (canonical_smiles smiles p').
Proof.
  intros [DP DS]. py_unfold.
  specialize (DP smiles (toolkit p) (toolkit p')).
  destruct (Chem.MolFromSmiles smiles (toolkit p)) as [r w].
  destruct (Chem.MolFromSmiles smiles (toolkit p')) as [r' w'].
  cbn in DP. subst r'.
  destruct r as [[m|]|e]; cbn; try reflexivity.
  specialize (DS m true w w').
  destruct (Chem.MolToSmiles m true w) as [s w1].
  destruct (Chem.MolToSmiles m true w') as [s' w1'].
  exact DS.
Qed.

(** C10. If the toolkit's parser accepts the empty string, returning a
handle whose canonical form is the empty string, then
[canonical_smiles ""] is the serializer's call on that handle, it returns
the empty string, and so an empty result does not tell that the parser
refused the input. *)
Theorem canonical_smiles_empty_input (p : Proc)
    (m : Chem.Mol) (w w' : Chem.World) :
  Chem.MolFromSmiles "" (toolkit p) = (Ret (Some m), w) ->
  Chem.MolToSmiles m true w = (Ret "", w') ->
  canonical_smiles "" p =
    chem (Chem.MolToSmiles m true) (mkProc w (stdout p) (stderr p)) /\
  canonical_smiles "" p = (Ret "", mkProc w' (stdout p) (stderr p)) /\
  ~ (fst (canonical_smiles "" p) = Ret "" ->
     fst (Chem.MolFromSmiles "" (toolkit p)) = Ret None).
Proof.
  intros E S.
  pose proof (canonical_smiles_Some_run _ _ _ _ _ _ E S) as R.
  split; [|split]; [| exact R |].
  - exact (canonical_smiles_Some _ _ _ _ E).
  - intros F. rewrite R, E in F. specialize (F eq_refl). discriminate F.
Qed.

End CanonicalSmiles.

(** ** The program *)

Section Program.

Context {T : Chem.Toolkit}.

(** C4. Invoked with no positional argument ([sys.argv] holds the script
name alone), the program writes an empty line to standard output and exits
with status 0; the toolkit is not called and nothing goes to standard
error. *)
Theorem program_no_argument (prog : string) (p : Proc) :
  run_script [prog] p =
  (0%Z, mkProc (toolkit p) (stdout p ++ newline) (stderr p)).
Proof. apply run_script_short_argv. cbn. lia. Qed.

(** C5, as amended. Invoked with one positional argument or more, when
[canonical_smiles] on the first one returns a string [out] (which may be
empty), the program writes [out] and a line end to standard output and
exits with status 0; the arguments after the first have no part in it. *)
Theorem program_first_argument (prog a : string) (rest : list string)
    (p q : Proc) (out : string) :
  canonical_smiles a p = (Ret out, q) ->
  run_script (prog :: a :: rest) p =
  (0%Z, mkProc (toolkit q) (stdout p ++ out ++ newline) (stderr p)).
Proof. exact (run_script_prints prog a rest p out q). Qed.

(** C6, as amended. Whenever the toolkit calls made for the first
argument return, the program exits with status 0; in particular an input
the parser refuses gives status 0 and an empty line on standard output. *)
Theorem program_exit_zero (argv : list string) (p : Proc) :
  (forall a, nth_error argv 1 = Some a ->
             toolkit_returns a (toolkit p) = true) ->
  fst (run_script argv p) = 0%Z /\
  (forall a w, nth_error argv 1 = Some a ->
     Chem.MolFromSmiles a (toolkit p) = (Ret None, w) ->
     stdout (snd (run_script argv p)) = stdout p ++ newline).
Proof.
  intros H.
  destruct argv as [|prog [|a rest]].
  - rewrite run_script_short_argv by (cbn; lia). split; [reflexivity|].
    intros a w [=].
  - rewrite run_script_short_argv by (cbn; lia). split; [reflexivity|].
    intros a w [=].
  - specialize (H a eq_refl). unfold toolkit_returns in H. split.
    + destruct (Chem.MolFromSmiles a (toolkit p)) as [[[m|]|e] w] eqn:E;
        [| | discriminate H].
      * destruct (Chem.MolToSmiles m true w) as [[c|e] w'] eqn:S;
          [| discriminate H].
        rewrite (run_script_prints _ _ _ _ _ _
                   (canonical_smiles_Some_run _ _ _ _ _ _ E S)).
        reflexivity.
      * rewrite (run_script_prints _ _ _ _ _ _ (canonical_smiles_None _ _ _ E)).
        reflexivity.
    + intros a' w [= <-] E.
      rewrite (run_script_prints _ _ _ _ _ _ (canonical_smiles_None _ _ _ E)).
      reflexivity.
Qed.

(** C8. Provided the toolkit, given the empty string, refuses it or
accepts it as a molecule whose canonical form is empty, the program shows
the same to its caller with no argument and with the empty string as its
one argument: an empty line on standard output and exit status 0. *)
Theorem program_no_argument_as_empty_argument (prog : string) (p : Proc) :
  toolkit_empty_on_empty (toolkit p) ->
  observable (run_script [prog] p) = observable (run_script [prog; ""] p) /\
  observable (run_script [prog] p) = (stdout p ++ newline, 0%Z).
Proof.
  intros H.
  assert (R0 : observable (run_script [prog] p) = (stdout p ++ newline, 0%Z)).
  { rewrite run_script_short_argv by (cbn; lia). reflexivity. }
  split; [|exact R0]. rewrite R0.
  destruct H as [(w & E) | (m & w & E & S)].
  - rewrite (run_script_prints _ _ _ _ _ _ (canonical_smiles_None _ _ _ E)).
    reflexivity.
  - destruct (Chem.MolToSmiles m true w) as [r w'] eqn:S'. cbn in S. subst r.
    rewrite (run_script_prints _ _ _ _ _ _
               (canonical_smiles_Some_run _ _ _ _ _ _ E S')).
    reflexivity.
Qed.

End Program.

(** ** Further properties of the script *)

Section Further.

Context {T : Chem.Toolkit}.

Lemma append_empty_r (s : string) : s ++ "" = s.
Proof. induction s as [|c s IH]; cbn; [reflexivity | rewrite IH; reflexivity]. Qed.

(** What the script does with the outcome of [canonical_smiles]. *)
Lemma main_raises prog a rest p e q :
  canonical_smiles a p = (Raise e, q) ->
  main (prog :: a :: rest) p = (Raise e, q).
Proof. intros R. rewrite main_with_argument. unfold bind. rewrite R. reflexivity. Qed.

Lemma main_returns prog a rest p out q :
  canonical_smiles a p = (Ret out, q) ->
  main (prog :: a :: rest) p = print out q.
Proof. intros R. rewrite main_with_argument. unfold bind. rewrite R. reflexivity. Qed.

Lemma canonical_smiles_result_fixed smiles p p' :
  toolkit_deterministic ->
  fst (canonical_smiles smiles p) = fst (canonical_smiles smiles p').
Proof.
  intros [DP DS]. py_unfold.
  pose proof (DP smiles (toolkit p) (toolkit p')) as E.
  destruct (Chem.MolFromSmiles smiles (toolkit p)) as [r w].
  destruct (Chem.MolFromSmiles smiles (toolkit p')) as [r' w'].
  cbn in E. subst r'.
  destruct r as [[m|]|e]; cbn; try reflexivity.
  pose proof (DS m true w w') as E.
  destruct (Chem.MolToSmiles m true w), (Chem.MolToSmiles m true w').
  exact E.
Qed.

(** X2. [canonical_smiles] raises exactly what the toolkit raises: it ends
in exception [e] if and only if the parser raised [e], or the parser
returned a handle and the serializer raised [e] on it.  The function
catches nothing and raises nothing of its own. *)
Theorem canonical_smiles_raises_iff (smiles : string) (p : Proc) (e : exn) :
  fst (canonical_smiles smiles p) = Raise e <->
  (fst (Chem.MolFromSmiles smiles (toolkit p)) = Raise e \/
   exists m w,
     Chem.MolFromSmiles smiles (toolkit p) = (Ret (Some m), w) /\
     fst (Chem.MolToSmiles m true w) = Raise e).
Proof.
  py_unfold.
  destruct (Chem.MolFromSmiles smiles (toolkit p)) as [[[m|]|e'] w]; cbn.
  - destruct (Chem.MolToSmiles m true w) as [r w'] eqn:S; cbn. split.
    + intros ->. right. exists m, w. rewrite S. split; reflexivity.
    + intros [D | (m' & w1 & [= <- <-] & R)]; [discriminate D|].
      rewrite S in R. exact R.
  - split; [discriminate|].
    intros [D | (m' & w1 & D & _)]; discriminate D.
  - split; [intros [= ->]; left; reflexivity|].
    intros [[= ->] | (m' & w1 & D & _)]; [reflexivity | discriminate D].
Qed.

(** X3. The index [sys.argv[1]] is never out of range.  When the script
body ends in an exception, either [sys.argv] had fewer than two entries and
the exception is the [SystemExit(0)] of the first branch, after the empty
line was printed, or the exception came out of [canonical_smiles] on
[sys.argv[1]]. *)
Theorem main_raise_origin (argv : list string) (p q : Proc) (e : exn) :
  main argv p = (Raise e, q) ->
  ((length argv < 2)%nat /\ e = SystemExit 0 /\
   q = mkProc (toolkit p) (stdout p ++ newline) (stderr p)) \/
  (exists a, nth_error argv 1 = Some a /\
             canonical_smiles a p = (Raise e, q)).
Proof.
  intros H.
  destruct argv as [|prog [|a rest]].
  - rewrite main_short_argv in H by (cbn; lia). injection H as <- <-.
    left. cbn. repeat split. lia.
  - rewrite main_short_argv in H by (cbn; lia). injection H as <- <-.
    left. cbn. repeat split. lia.
  - right. exists a. split; [reflexivity|].
    destruct (canonical_smiles a p) as [[out|e'] q'] eqn:R.
    + rewrite (main_returns _ _ _ _ _ _ R) in H. discriminate H.
    + rewrite (main_raises _ _ _ _ _ _ R) in H. injection H as -> ->.
      reflexivity.
Qed.

(** X4. An exception of the toolkit is not caught.  When
[canonical_smiles] on the first argument raises [e], and [e] is not a
[SystemExit], the program prints nothing, the interpreter writes one
traceback for [e], and the exit status is 1. *)
Theorem program_uncaught_exception (prog a : string) (rest : list string)
    (p q : Proc) (e : exn) :
  canonical_smiles a p = (Raise e, q) ->
  (forall code, e <> SystemExit code) ->
  run_script (prog :: a :: rest) p =
  (1%Z, mkProc (toolkit q) (stdout p) (stderr p ++ [e])).
Proof.
  intros R N. unfold run_script. rewrite (main_raises _ _ _ _ _ _ R).
  destruct (canonical_smiles_streams a p) as [So Se]. rewrite R in So, Se.
  cbn in So, Se. rewrite So, Se.
  destruct e as [code| |what]; [destruct (N code eq_refl) | reflexivity..].
Qed.

(** X5. What a run appends to standard output is fixed by the source,
and what was there before is kept.  With no first argument it is a line
end; with a first argument on which [canonical_smiles] returns [out] it is
[out] and one line end, once; and when [canonical_smiles] raises it is
nothing at all. *)
Theorem program_stdout_appended (argv : list string) (p : Proc) :
  stdout (snd (run_script argv p)) =
  stdout p ++
  match nth_error argv 1 with
  | None => newline
  | Some a =>
      match fst (canonical_smiles a p) with
      | Ret out => out ++ newline
      | Raise _ => ""
      end
  end.
Proof.
  destruct argv as [|prog [|a rest]].
  - rewrite run_script_short_argv by (cbn; lia). reflexivity.
  - rewrite run_script_short_argv by (cbn; lia). reflexivity.
  - cbn [nth_error].
    destruct (canonical_smiles a p) as [[out|e] q] eqn:R; cbn [fst].
    + rewrite (run_script_prints _ _ _ _ _ _ R). reflexivity.
    + unfold run_script. rewrite (main_raises _ _ _ _ _ _ R).
      destruct (canonical_smiles_streams a p) as [So _]. rewrite R in So.
      cbn in So. rewrite append_empty_r.
      destruct e; exact So.
Qed.


(** X8. If the toolkit's canonicalization is idempotent, the program
reproduces its own output: when a run on an accepted argument printed the
line [c], a run with [c] as first argument, from any process state, prints
[c] again and exits with status 0. *)
Theorem program_idempotent (prog a : string) (rest : list string)
    (p q : Proc) (m : Chem.Mol) (w : Chem.World) (c : string) :
  toolkit_idempotent ->
  Chem.MolFromSmiles a (toolkit p) = (Ret (Some m), w) ->
  canonical_smiles a p = (Ret c, q) ->
  observable (run_script (prog :: a :: rest) p)
  = (stdout p ++ c ++ newline, 0%Z) /\
  forall prog' rest' p',
    observable (run_script (prog' :: c :: rest') p')
    = (stdout p' ++ c ++ newline, 0%Z).
Proof.
  intros I E R. split.
  - rewrite (run_script_prints _ _ _ _ _ _ R). reflexivity.
  - intros prog' rest' p'.
    destruct (Chem.MolToSmiles m true w) as [r w1] eqn:S.
    rewrite (canonical_smiles_Some_run _ _ _ _ _ _ E S) in R.
    injection R as -> _.
    destruct (I m w c w1 S (toolkit p')) as (m' & w3 & w4 & E' & S').
    rewrite (run_script_prints _ _ _ _ _ _
               (canonical_smiles_Some_run _ _ _ _ _ _ E' S')).
    reflexivity.
Qed.

(** X9. If the toolkit's parser and serializer are deterministic, what the
caller of the program sees depends on [sys.argv] alone: two runs on the
same arguments, from processes with the same standard output so far, end
with the same standard output and the same exit status, whatever state
the toolkit was in. *)
Theorem program_deterministic (argv : list string) (p p' : Proc) :
  toolkit_deterministic ->
  stdout p = stdout p' ->
  observable (run_script argv p) = observable (run_script argv p').
Proof.
  intros D Eo.
  destruct argv as [|prog [|a rest]].
  - rewrite !run_script_short_argv by (cbn; lia). cbn. rewrite Eo. reflexivity.
  - rewrite !run_script_short_argv by (cbn; lia). cbn. rewrite Eo. reflexivity.
  - pose proof (canonical_smiles_result_fixed a p p' D) as F.
    destruct (canonical_smiles_streams a p) as [So _].
    destruct (canonical_smiles_streams a p') as [So' _].
    destruct (canonical_smiles a p) as [r q] eqn:R.
    destruct (canonical_smiles a p') as [r' q'] eqn:R'.
    cbn in F, So, So'. subst r'.
    destruct r as [out|e].
    + rewrite (run_script_prints _ _ _ _ _ _ R),
              (run_script_prints _ _ _ _ _ _ R').
      cbn. rewrite Eo. reflexivity.
    + unfold run_script.
      rewrite (main_raises _ _ _ _ _ _ R), (main_raises _ _ _ _ _ _ R').
      destruct e; unfold observable; cbn [fst snd stdout];
        rewrite So, So', Eo; reflexivity.
Qed.

End Further.

(** ** The theorems at work on the small toolkit *)

Import ToyKit.

(** A text the small parser refuses is answered by the empty string. *)
Lemma canonical_smiles_rejected_witness :
  @Chem.MolFromSmiles kit "notasmiles(((" (toolkit fresh) = (Ret None, 1%nat) /\
  canonical_smiles "notasmiles(((" fresh
  = (Ret "", mkProc (1%nat : Chem.World) "" []).
Proof.
  split; [reflexivity|].
  exact (@canonical_smiles_rejected kit "notasmiles(((" fresh 1%nat eq_refl).
Defined.

(** An accepted text is answered by the serializer's call on its handle. *)
Lemma canonical_smiles_accepted_witness :
  @Chem.MolFromSmiles kit "OCC" (toolkit fresh)
  = (Ret (Some [O; C; C]), 0%nat) /\
  canonical_smiles "OCC" fresh
  = chem (@Chem.MolToSmiles kit [O; C; C] true) fresh.
Proof.
  split; [reflexivity|].
  exact (@canonical_smiles_accepted kit "OCC" fresh
           [O; C; C] 0%nat eq_refl).
Defined.

(** C3 fails at the empty input: the small parser accepts it, as the empty
molecule, and the function returns the empty string. *)
Lemma canonical_smiles_accepted_empty_output :
  @Chem.MolFromSmiles kit "" (toolkit fresh) = (Ret (Some []), 0%nat) /\
  canonical_smiles "" fresh = (Ret "", fresh).
Proof. split; reflexivity. Qed.

Lemma canonical_smiles_nonempty_witness :
  "CCO" <> "" /\ fst (canonical_smiles "OCC" fresh) = Ret "CCO".
Proof.
  assert (N : "CCO" <> "") by discriminate.
  split; [exact N|].
  exact (proj1 (@canonical_smiles_nonempty kit "OCC" fresh
                  [O; C; C] 0%nat 0%nat "CCO"
                  eq_refl eq_refl N)).
Defined.

Lemma canonical_smiles_idempotent_witness :
  canonical_smiles "OCC" fresh = (Ret "CCO", fresh) /\
  fst (canonical_smiles "CCO" fresh) = Ret "CCO".
Proof.
  split; [reflexivity|].
  exact (@canonical_smiles_idempotent kit "OCC" fresh fresh
           [O; C; C] 0%nat "CCO"
           ToyFacts.kit_idempotent eq_refl eq_refl fresh).
Defined.

(** The same input from a fresh process and from one where the toolkit has
logged three lines already. *)
Lemma canonical_smiles_deterministic_witness :
  fst (canonical_smiles "OCC" fresh)
  = fst (canonical_smiles "OCC" (mkProc (3%nat : Chem.World) "CCO" [])).
Proof.
  exact (@canonical_smiles_deterministic kit "OCC" fresh
           (mkProc (3%nat : Chem.World) "CCO" []) ToyFacts.kit_deterministic).
Defined.

Lemma canonical_smiles_empty_input_witness :
  canonical_smiles "" fresh = (Ret "", fresh) /\
  ~ (fst (canonical_smiles "" fresh) = Ret "" ->
     fst (@Chem.MolFromSmiles kit "" (toolkit fresh)) = Ret None).
Proof.
  exact (proj2 (@canonical_smiles_empty_input kit fresh [] 0%nat 0%nat
                  eq_refl eq_refl)).
Defined.

(** Two arguments: the second one is not looked at. *)
Lemma program_first_argument_witness :
  run_script [script; "OCC"; "notasmiles((("] fresh
  = (0%Z, mkProc (0%nat : Chem.World) ("CCO" ++ newline) []).
Proof.
  exact (@program_first_argument kit script "OCC" ["notasmiles((("]
           fresh fresh "CCO" eq_refl).
Defined.

(** C5 fails when the call does not return: with the one argument below
[canonical_smiles] raises, so the program has nothing to print, prints
nothing, and the exit status is 1. *)
Lemma program_first_argument_raised :
  fst (canonical_smiles (String "255"%char "") fresh)
  = Raise (ToolkitError "argument conversion") /\
  observable (run_script [script; String "255"%char ""] fresh) = ("", 1%Z).
Proof. split; reflexivity. Qed.

(** C6 fails when the toolkit raises: on an argument with a byte outside
ASCII the small parser raises, nothing is caught, and the interpreter ends
the process with status 1 after a traceback and no output. *)
Lemma program_exit_nonzero :
  run_script [script; String "255"%char ""] fresh
  = (1%Z, mkProc (0%nat : Chem.World) ""
            [ToolkitError "argument conversion"]) /\
  fst (run_script [script; String "255"%char ""] fresh) <> 0%Z.
Proof. split; [reflexivity | discriminate]. Qed.

Lemma program_exit_zero_witness :
  @toolkit_returns kit "notasmiles(((" (toolkit fresh) = true /\
  fst (run_script [script; "notasmiles((("] fresh) = 0%Z /\
  stdout (snd (run_script [script; "notasmiles((("] fresh)) = newline.
Proof.
  split; [reflexivity|].
  assert (H : forall a, nth_error [script; "notasmiles((("] 1 = Some a ->
                        toolkit_returns a (toolkit fresh) = true).
  { intros a [= <-]. reflexivity. }
  destruct (@program_exit_zero kit [script; "notasmiles((("] fresh H)
    as [Z0 Out].
  split; [exact Z0|].
  exact (Out "notasmiles(((" 1%nat eq_refl eq_refl).
Defined.

Lemma program_no_argument_as_empty_argument_witness :
  @toolkit_empty_on_empty kit (toolkit fresh) /\
  observable (run_script [script] fresh)
  = observable (run_script [script; ""] fresh).
Proof.
  assert (H : @toolkit_empty_on_empty kit (toolkit fresh)).
  { right. exists [], 0%nat. split; reflexivity. }
  split; [exact H|].
  exact (proj1 (@program_no_argument_as_empty_argument kit script fresh H)).
Defined.


(** ** The further properties at work on the small toolkit *)

(** The small parser raises on a byte outside ASCII: the exception comes
out of [canonical_smiles] on [sys.argv[1]], not out of the indexing. *)
Lemma main_raise_origin_witness :
  main [script; String "255"%char ""] fresh
  = (Raise (ToolkitError "argument conversion"), fresh) /\
  (((length [script; String "255"%char ""] < 2)%nat /\
    ToolkitError "argument conversion" = SystemExit 0 /\
    fresh = mkProc (toolkit fresh) (stdout fresh ++ newline) (stderr fresh)) \/
   (exists a, nth_error [script; String "255"%char ""] 1 = Some a /\
              canonical_smiles a fresh
              = (Raise (ToolkitError "argument conversion"), fresh))).
Proof.
  split; [reflexivity|].
  exact (@main_raise_origin kit [script; String "255"%char ""] fresh fresh
           (ToolkitError "argument conversion") eq_refl).
Defined.

Lemma program_uncaught_exception_witness :
  canonical_smiles (String "255"%char "") fresh
  = (Raise (ToolkitError "argument conversion"), fresh) /\
  run_script [script; String "255"%char ""; "OCC"] fresh
  = (1%Z, mkProc (0%nat : Chem.World) ""
            [ToolkitError "argument conversion"]).
Proof.
  split; [reflexivity|].
  assert (N : forall code, ToolkitError "argument conversion" <> SystemExit code)
    by (intros code; discriminate).
  exact (@program_uncaught_exception kit script (String "255"%char "") ["OCC"]
           fresh fresh (ToolkitError "argument conversion") eq_refl N).
Defined.

(** The line printed for [OCC] is [CCO]; the program run on [CCO] prints
[CCO] again. *)
Lemma program_idempotent_witness :
  observable (run_script [script; "OCC"] fresh) = ("CCO" ++ newline, 0%Z) /\
  observable (run_script [script; "CCO"] fresh) = ("CCO" ++ newline, 0%Z).
Proof.
  destruct (@program_idempotent kit script "OCC" [] fresh fresh [O; C; C]
              0%nat "CCO" ToyFacts.kit_idempotent eq_refl eq_refl)
    as [First Again].
  split; [exact First|].
  exact (Again script [] fresh).
Defined.

(** A fresh process, and one where the toolkit has logged three lines and
a traceback was written before. *)
Lemma program_deterministic_witness :
  observable (run_script [script; "notasmiles((("] fresh)
  = observable (run_script [script; "notasmiles((("]
                  (mkProc (3%nat : Chem.World) "" [IndexError])).
Proof.
  exact (@program_deterministic kit [script; "notasmiles((("] fresh
           (mkProc (3%nat : Chem.World) "" [IndexError])
           ToyFacts.kit_deterministic eq_refl).
Defined.
